(** * The ngrok tunnel adapter (tunnel.go)

    A shallow embedding of [tunnelImpl], the adapter that presents a
    tunnel-client handle as a [net.Listener], and of [connImpl], the
    connection wrapper it hands out.  The collaborators the adapter
    drives (the tunnel client, the session, net/http) are interfaces or
    library code; they appear here as the method tables and models the
    adapter is written against. *)

From Stdlib Require Import ZArith String List.
From stdpp Require Import base option gmap strings relations.

Import ListNotations.
Local Open Scope string_scope.

(** ** Calls that may return, panic or never return

    A Go call either returns, panics (a nil dereference), or blocks for
    ever (an [Accept] with nothing to accept, a close that waits for an
    acknowledgement that never comes).  A method of an object whose
    state lives in a world [St] is a function of that world.  A call
    that returns or panics leaves the world in a state: the deferred
    calls of its callers run in the state a panic left. *)

Inductive outcome (St A : Type) : Type :=
| Returns (r : A * St)
| Panics (s : St)
| Blocks.

Arguments Returns {St A} r.
Arguments Panics {St A} s.
Arguments Blocks {St A}.

Definition Go (St A : Type) : Type := St -> outcome St A.

Definition go_ret {St A} (a : A) : Go St A := fun s => Returns (a, s).

Definition go_bind {St A B} (m : Go St A) (k : A -> Go St B) : Go St B :=
  fun s =>
    match m s with
    | Returns (a, s') => k a s'
    | Panics s' => Panics s'
    | Blocks => Blocks
    end.

Definition go_panic {St A} : Go St A := fun s => Panics s.

Notation "'let*' x ':=' m 'in' k" := (go_bind m (fun x => k))
  (at level 10, x name, m at level 100, k at level 200).

(** ** Pointers

    A [*T] is nil or the address of a [T]; the model keeps, next to the
    address, the struct found there when the pointer is followed. *)

Inductive pointer (A : Type) : Type :=
| nil_ptr
| ref (addr : positive) (target : A).

Arguments nil_ptr {A}.
Arguments ref {A} addr target.

(** ** Errors *)

(** Modelled from the spec: [errAcceptFailed] is declared in the
    package's error file, which is not among the sources at hand.  The
    composite literal in [Accept] shows its one field, [Inner]; section 7
    of the specification makes that field its cause.  The other
    constructors are the errors of the libraries the adapter meets:
    [errors.New], errors that implement [net.Error], the two context
    errors and net/http's [ErrServerClosed]. *)
Inductive error : Type :=
| errorString (msg : string)
| netError (msg : string) (timeout temporary : bool)
| errAcceptFailed (Inner : error)
| Canceled
| DeadlineExceeded
| ErrServerClosed.

(** The cause of an error ([errors.Unwrap]). *)
Definition Unwrap (e : error) : option error :=
  match e with
  | errAcceptFailed inner => Some inner
  | _ => None
  end.

(** The kind test ([errors.As] against [errAcceptFailed]). *)
Definition isAcceptFailed (e : error) : bool :=
  match e with
  | errAcceptFailed _ => true
  | _ => false
  end.

(** ** package time, package context, package net *)

Module time.
(** [time.Duration] is an int64 count of nanoseconds. *)
Definition Duration : Type := Z.
Definition Second : Duration := 1000000000%Z.
End time.

Module context.
(** What has ended a derived context itself, before anything ended its
    parent: nothing so far, a call of its cancel function, or its own
    deadline. *)
Inductive status : Type :=
| Active
| CancelCalled
| DeadlinePassed.

(** A non-nil [context.Context]: the background context, or one
    derived from a parent with a timeout. *)
Inductive Context : Type :=
| Background
| WithTimeout (parent : Context) (timeout : time.Duration) (st : status)
| WithValue (parent : Context) (key : string).

(** [ctx.Err()]: nil while the context is live, then the error of
    what ended it first: its own cancellation or deadline, or else the
    error of its parent. *)
Fixpoint Err (ctx : Context) : option error :=
  match ctx with
  | Background => None
  | WithTimeout parent _ st =>
      match st with
      | CancelCalled => Some Canceled
      | DeadlinePassed => Some DeadlineExceeded
      | Active => Err parent
      end
  | WithValue parent _ => Err parent
  end.

(** The errors a context reports once it is done. *)
Definition isContextError (e : error) : bool :=
  match e with
  | Canceled | DeadlineExceeded => true
  | _ => false
  end.
End context.

Module net.
(** [net.Addr]. *)
Record Addr : Type := { Network : string; String : string }.

(** A raw duplex stream, known by its handle. *)
Inductive Conn : Type := stream (handle : nat).

(** The interface [net.Listener], as a method table over the world [St]
    of the listener; [C] is what its [Accept] hands out. *)
Record Listener (St C : Type) : Type := {
  Accept : Go St (C * option error);
  Close : Go St (option error);
  ListenerAddr : St -> Addr
}.

Arguments Accept {St C} _.
Arguments Close {St C} _.
Arguments ListenerAddr {St C} _.

(** [ne, ok := err.(net.Error); ok && ne.Temporary()].  The method set
    of [errAcceptFailed] is declared with the type, outside tunnel.go:
    [wrapperTemporary inner] says whether [errAcceptFailed{Inner: inner}]
    is a [net.Error] that reports [Temporary()]. *)
Definition Temporary (wrapperTemporary : error -> bool) (e : error) : bool :=
  match e with
  | netError _ _ temporary => temporary
  | errAcceptFailed inner => wrapperTemporary inner
  | DeadlineExceeded => true
  | errorString _ | Canceled | ErrServerClosed => false
  end.
End net.

(** ** The tunnel client (package internal/tunnel/client) *)

(** Modelled from the spec: the tunnel client package is not among the
    sources at hand.  Section 6 of the specification gives the methods
    the adapter consumes; the field selections in tunnel.go give the
    fields of the proxy connection ([Conn]) and of the bind
    configuration ([URL], [ConfigProto], [Metadata], [Labels]).
    [Accept] and [Close] talk to the session and may block; the four
    getters are reads of the client's state. *)
Module tunnel_client.
Record ProxyConn : Type := {
  Header : string;
  Conn : net.Conn
}.

Record BindConfig : Type := {
  ConfigProto : string;
  URL : string;
  Metadata : string;
  Labels : gmap string string
}.

(** The interface [tunnel_client.Tunnel], as a method table over the
    world [St] that holds the client's state. *)
Record Tunnel (St : Type) : Type := {
  Accept : Go St (pointer ProxyConn * option error);
  Close : Go St (option error);
  Addr : St -> net.Addr;
  ID : St -> string;
  ForwardsTo : St -> string;
  RemoteBindConfig : St -> BindConfig
}.

Arguments Accept {St} _.
Arguments Close {St} _.
Arguments Addr {St} _.
Arguments ID {St} _.
Arguments ForwardsTo {St} _.
Arguments RemoteBindConfig {St} _.
End tunnel_client.

(** ** package net/http: the accept loop of [Server.Serve]

    net/http is library code.  [Server.Serve] is documented to accept
    connections on the listener, start a goroutine per connection, and
    to close the listener and return a non-nil error when it stops; its
    loop sleeps and retries when [Accept] fails with a [net.Error] whose
    [Temporary()] is true, and returns any other [Accept] error as it
    is.  The server built by [tunnelImpl.Serve] is local to the call, so
    it is never shut down from outside.  The loop need not end: [fuel]
    bounds the number of [Accept] calls of a run, and [None] is a run
    that is still going when the bound is reached. *)

Module http.
Section server.
Context {St C H : Type}.

Record Server : Type := {
  Handler : H;
  BaseContext : option (net.Listener St C -> context.Context)
}.

(** A started [go c.serve(connCtx)]. *)
Record goroutine : Type := {
  rwc : C;
  connCtx : context.Context;
  handler : H
}.

(** [err.(net.Error)] succeeds and [Temporary()] is true. *)
Variable temporary : error -> bool.

Definition ServerContextKey : string := "http-server".

(** The loop
    [for { rw, err := l.Accept(); if err != nil { (retry or return err) };
           c := srv.newConn(rw); go c.serve(connCtx) }].
    [started] are the goroutines started so far. *)
Fixpoint acceptLoop (fuel : nat) (srv : Server) (l : net.Listener St C)
    (ctx : context.Context) (started : list goroutine) (s : St)
    : option (outcome St (error * list goroutine)) :=
  match fuel with
  | O => None
  | S fuel' =>
      match net.Accept l s with
      | Returns ((rw, Some err), s') =>
          if temporary err
          then acceptLoop fuel' srv l ctx started s'
          else Some (Returns ((err, started), s'))
      | Returns ((rw, None), s') =>
          let c := {| rwc := rw; connCtx := ctx; handler := Handler srv |} in
          acceptLoop fuel' srv l ctx (started ++ [c]) s'
      | Panics s' => Some (Panics s')
      | Blocks => Some Blocks
      end
  end.

(** The result is the error returned and the goroutines started, in
    order.  The base context of the connections is what [BaseContext]
    gives for the listener.  [defer l.Close()] is registered before the
    loop, so the close runs when the loop returns and when it panics;
    its own error is dropped, and after it a panic goes on. *)
Definition Serve (fuel : nat) (srv : Server) (l : net.Listener St C) (s : St)
    : option (outcome St (error * list goroutine)) :=
  let baseCtx :=
    match BaseContext srv with
    | Some f => f l
    | None => context.Background
    end in
  let ctx := context.WithValue baseCtx ServerContextKey in
  match acceptLoop fuel srv l ctx [] s with
  | Some (Returns (r, s')) =>
      match net.Close l s' with
      | Returns (_, s'') => Some (Returns (r, s''))
      | Panics s'' => Some (Panics s'')
      | Blocks => Some Blocks
      end
  | Some (Panics s') =>
      match net.Close l s' with
      | Returns (_, s'') => Some (Panics s'')
      | Panics s'' => Some (Panics s'')
      | Blocks => Some Blocks
      end
  | Some Blocks => Some Blocks
  | None => None
  end.
End server.

Arguments Server : clear implicits.
Arguments goroutine : clear implicits.
End http.

(** ** The adapter *)

(** The owning session: an opaque reference. *)
Inductive Session : Type := session (id : nat).

Record tunnelImpl (St : Type) : Type := {
  Sess : Session;
  Tunnel : tunnel_client.Tunnel St
}.

Arguments Sess {St} _.
Arguments Tunnel {St} _.

Record connImpl : Type := {
  Conn : net.Conn;
  Proxy : pointer tunnel_client.ProxyConn
}.

Module connImpl.
Definition ProxyConn (c : connImpl) : pointer tunnel_client.ProxyConn :=
  Proxy c.
End connImpl.

Module tunnelImpl.
Section methods.
Context {St : Type}.
Implicit Type t : tunnelImpl St.

(** The [net.Conn] result is nil ([None]) or a pointer to a fresh
    [connImpl] ([Some]). *)
Definition Accept t : Go St (option connImpl * option error) :=
  let* r := tunnel_client.Accept (Tunnel t) in
  match snd r with
  | Some err => go_ret (None, Some (errAcceptFailed err))
  | None =>
      match fst r with
      | nil_ptr => go_panic
      | ref _ pc =>
          go_ret (Some {| Conn := tunnel_client.Conn pc; Proxy := fst r |},
                  None)
      end
  end.

Definition CloseWithContext t (_ : context.Context) : Go St (option error) :=
  tunnel_client.Close (Tunnel t).

(** [defer cancel()] only releases the timer of [ctx]. *)
Definition Close t : Go St (option error) :=
  let ctx := context.WithTimeout context.Background
               (time.Second * 5)%Z context.Active in
  CloseWithContext t ctx.

Definition Addr t (s : St) : net.Addr :=
  tunnel_client.Addr (Tunnel t) s.

Definition URL t (s : St) : string :=
  tunnel_client.URL (tunnel_client.RemoteBindConfig (Tunnel t) s).

Definition Proto t (s : St) : string :=
  tunnel_client.ConfigProto (tunnel_client.RemoteBindConfig (Tunnel t) s).

Definition ForwardsTo t (s : St) : string :=
  tunnel_client.ForwardsTo (Tunnel t) s.

Definition Metadata t (s : St) : string :=
  tunnel_client.Metadata (tunnel_client.RemoteBindConfig (Tunnel t) s).

Definition ID t (s : St) : string :=
  tunnel_client.ID (Tunnel t) s.

Definition Labels t (s : St) : gmap string string :=
  tunnel_client.Labels (tunnel_client.RemoteBindConfig (Tunnel t) s).

Definition Session t : Session := Sess t.

(** The adapter as the [net.Listener] that [srv.Serve(t)] receives. *)
Definition asListener t : net.Listener St (option connImpl) :=
  {| net.Accept := Accept t; net.Close := Close t; net.ListenerAddr := Addr t |}.

(** [wrapperTemporary] is the parameter of [net.Temporary]. *)
Definition Serve {H : Type} (wrapperTemporary : error -> bool) (fuel : nat)
    t (ctx : context.Context) (h : H)
    : St -> option (outcome St (error * list (http.goroutine (option connImpl) H))) :=
  let srv := {| http.Handler := h;
                http.BaseContext := Some (fun _ => ctx) |} in
  http.Serve (net.Temporary wrapperTemporary) fuel srv (asListener t).
End methods.

(** A [*tunnelImpl] is an address in the store of adapter objects; the
    methods above read the struct the receiver points to.  An
    [HTTPTunnel] interface value holds such a pointer. *)
Definition ptr : Type := positive.
Definition HTTPTunnel : Type := ptr.
Definition store (St : Type) : Type := ptr -> tunnelImpl St.

Definition AsHTTP (t : ptr) : HTTPTunnel := t.

(** A method call through a pointer or an interface value. *)
Definition via {St A} (m : tunnelImpl St -> A) (h : store St) (p : ptr) : A :=
  m (h p).
End tunnelImpl.

(** ** Test doubles for the tunnel client

    Clients over one state: a queue of connections waiting to be
    accepted, a closed flag and the descriptive data. *)

Module fake.
Record state : Type := {
  pending : list (pointer tunnel_client.ProxyConn);
  closed : bool;
  bind : tunnel_client.BindConfig;
  ident : string;
  target : string
}.

Definition sentinel : error := errorString "tunnel closed".
Definition closeFailed : error := errorString "close failed".

Definition with_pending (s : state) q : state :=
  {| pending := q; closed := closed s; bind := bind s;
     ident := ident s; target := target s |}.

Definition with_closed (s : state) b : state :=
  {| pending := pending s; closed := b; bind := bind s;
     ident := ident s; target := target s |}.

Definition with_bind (s : state) cfg : state :=
  {| pending := pending s; closed := closed s; bind := cfg;
     ident := ident s; target := target s |}.

(** Hands out what is queued, also after a close; then reports the
    close, or waits. *)
Definition drainingAccept : Go state (pointer tunnel_client.ProxyConn * option error) :=
  fun s =>
    match pending s with
    | c :: rest => Returns ((c, None), with_pending s rest)
    | [] => if closed s then Returns ((nil_ptr, Some sentinel), s) else Blocks
    end.

(** Refuses as soon as it is closed. *)
Definition strictAccept : Go state (pointer tunnel_client.ProxyConn * option error) :=
  fun s =>
    if closed s then Returns ((nil_ptr, Some sentinel), s)
    else match pending s with
         | c :: rest => Returns ((c, None), with_pending s rest)
         | [] => Blocks
         end.

Definition okClose : Go state (option error) :=
  fun s => Returns (None, with_closed s true).

(** Waits for an acknowledgement that never comes. *)
Definition stuckClose : Go state (option error) := fun _ => Blocks.

Definition failingClose : Go state (option error) :=
  fun s => Returns (Some closeFailed, s).

Definition client accept close : tunnel_client.Tunnel state :=
  {| tunnel_client.Accept := accept;
     tunnel_client.Close := close;
     tunnel_client.Addr := fun _ => {| net.Network := "tcp"; net.String := "localhost:0" |};
     tunnel_client.ID := ident;
     tunnel_client.ForwardsTo := target;
     tunnel_client.RemoteBindConfig := bind |}.

Definition draining := client drainingAccept okClose.
Definition strict := client strictAccept okClose.
Definition stuck := client strictAccept stuckClose.
Definition failing := client strictAccept failingClose.

Definition tunnel (c : tunnel_client.Tunnel state) : tunnelImpl state :=
  {| Sess := session 1; Tunnel := c |}.

Definition conn1 : pointer tunnel_client.ProxyConn :=
  ref 1 {| tunnel_client.Header := "proxy-header-1";
           tunnel_client.Conn := net.stream 7 |}.

Definition urlBind : tunnel_client.BindConfig :=
  {| tunnel_client.ConfigProto := "https";
     tunnel_client.URL := "https://example.ngrok.io";
     tunnel_client.Metadata := "meta";
     tunnel_client.Labels := ∅ |}.


Definition open1 : state :=
  {| pending := [conn1]; closed := false; bind := urlBind;
     ident := "tn_1"; target := "localhost:8080" |}.

(** Same bind configuration as [open1], another tunnel. *)
Definition open2 : state :=
  {| pending := []; closed := false; bind := urlBind;
     ident := "tn_2"; target := "localhost:9090" |}.

(** One connection queued, the close already reported by the session. *)
Definition closing1 : state := with_closed open1 true.
End fake.

(** ** Notions the statements use *)

(** The connection [Accept] builds around a non-nil proxy connection. *)
Definition wrapped (p : pointer tunnel_client.ProxyConn) : option connImpl :=
  match p with
  | nil_ptr => None
  | ref _ pc => Some {| Conn := tunnel_client.Conn pc; Proxy := p |}
  end.

(** The context [Close] builds. *)
Definition fiveSeconds (st : context.status) : context.Context :=
  context.WithTimeout context.Background (time.Second * 5)%Z st.


(** Every accessor gives what the client holds in the state [s]: the
    four bind-configuration fields, and the client's own identifier and
    forwarding target. *)
Definition readsClientAt {St} (t : tunnelImpl St) (s : St) : Prop :=
  let cfg := tunnel_client.RemoteBindConfig (Tunnel t) s in
  tunnelImpl.Metadata t s = tunnel_client.Metadata cfg
  /\ tunnelImpl.Proto t s = tunnel_client.ConfigProto cfg
  /\ tunnelImpl.URL t s = tunnel_client.URL cfg
  /\ tunnelImpl.Labels t s = tunnel_client.Labels cfg
  /\ tunnelImpl.ID t s = tunnel_client.ID (Tunnel t) s
  /\ tunnelImpl.ForwardsTo t s = tunnel_client.ForwardsTo (Tunnel t) s.

(** The object at [p] replaced by [obj]. *)
Definition store_set {St} (h : tunnelImpl.store St) (p : tunnelImpl.ptr)
    (obj : tunnelImpl St) : tunnelImpl.store St :=
  fun q => if decide (q = p) then obj else h q.

Section runs.
Context {St : Type}.

(** One call of the client that returns. *)
Inductive clientStep (c : tunnel_client.Tunnel St) : St -> St -> Prop :=
| clientStep_Accept s r s' :
    tunnel_client.Accept c s = Returns (r, s') -> clientStep c s s'
| clientStep_Close s r s' :
    tunnel_client.Close c s = Returns (r, s') -> clientStep c s s'.

(** One call of the adapter that returns. *)
Inductive step (t : tunnelImpl St) : St -> St -> Prop :=
| step_Accept s r s' :
    tunnelImpl.Accept t s = Returns (r, s') -> step t s s'
| step_Close s r s' :
    tunnelImpl.Close t s = Returns (r, s') -> step t s s'
| step_CloseWithContext ctx s r s' :
    tunnelImpl.CloseWithContext t ctx s = Returns (r, s') -> step t s s'.

(** The client fails every [Accept] made after a [Close] of its own
    that succeeded. *)
Definition refusesAfterClose (c : tunnel_client.Tunnel St) : Prop :=
  forall s s', tunnel_client.Close c s = Returns (None, s') ->
  forall s'', rtc (clientStep c) s' s'' ->
  exists p e s3, tunnel_client.Accept c s'' = Returns ((p, Some e), s3).

End runs.

(** The goroutine [Serve] starts for an accepted proxy connection. *)
Definition served {H} (ctx : context.Context) (h : H)
    (p : pointer tunnel_client.ProxyConn)
    : http.goroutine (option connImpl) H :=
  {| http.rwc := wrapped p;
     http.connCtx := context.WithValue ctx http.ServerContextKey;
     http.handler := h |}.

(** ** Runs of the accept loop

    The notions below describe everything a run of [Serve] can meet,
    temporary failures, blocked calls and panics included. *)

(** How a run of [Accept] calls ends: with an error that is not retried
    and the state it leaves, with a call that never returns, or with a
    panic and the state it leaves. *)
Inductive stop (St : Type) : Type :=
| FailsWith (e : error) (s : St)
| Stalls
| Crashes (s : St).

Arguments FailsWith {St} e s.
Arguments Stalls {St}.
Arguments Crashes {St} s.

Section loopRuns.
Context {St : Type}.

(** [tmp inner] says whether the adapter's error around [inner] is
    retried by the loop. *)
Variable tmp : error -> bool.

(** [acceptRun c s n conns st]: from [s], [n] calls of the client's
    [Accept] produce the connections [conns], in order, skip the
    failures that are retried, and end as [st] says. *)
Inductive acceptRun (c : tunnel_client.Tunnel St)
    : St -> nat -> list (pointer tunnel_client.ProxyConn) -> stop St -> Prop :=
| acceptRun_fail s p e s' :
    tunnel_client.Accept c s = Returns ((p, Some e), s') ->
    tmp e = false ->
    acceptRun c s 1 [] (FailsWith e s')
| acceptRun_retry s p e s' n conns st :
    tunnel_client.Accept c s = Returns ((p, Some e), s') ->
    tmp e = true ->
    acceptRun c s' n conns st ->
    acceptRun c s (S n) conns st
| acceptRun_conn s a pc s' n conns st :
    tunnel_client.Accept c s = Returns ((ref a pc, None), s') ->
    acceptRun c s' n conns st ->
    acceptRun c s (S n) (ref a pc :: conns) st
| acceptRun_block s :
    tunnel_client.Accept c s = Blocks ->
    acceptRun c s 1 [] Stalls
| acceptRun_panic s s' :
    tunnel_client.Accept c s = Panics s' ->
    acceptRun c s 1 [] (Crashes s')
| acceptRun_nil s s' :
    tunnel_client.Accept c s = Returns ((nil_ptr, None), s') ->
    acceptRun c s 1 [] (Crashes s').

(** A result of the client's [Accept] after which the loop calls
    [Accept] again. *)
Definition continues (r : pointer tunnel_client.ProxyConn * option error) : Prop :=
  match r with
  | (_, Some e) => tmp e = true
  | (ref _ _, None) => True
  | (nil_ptr, None) => False
  end.
End loopRuns.

(** The goroutine the loop starts for [p] on the context [cx]. *)
Definition spawned {H} (cx : context.Context) (h : H)
    (p : pointer tunnel_client.ProxyConn)
    : http.goroutine (option connImpl) H :=
  {| http.rwc := wrapped p; http.connCtx := cx; http.handler := h |}.

(** What the loop gives for a run that ends as [st], having started
    [started] before it. *)
Definition loopOutcome {St H} (cx : context.Context) (h : H)
    (started : list (http.goroutine (option connImpl) H))
    (conns : list (pointer tunnel_client.ProxyConn)) (st : stop St)
    : outcome St (error * list (http.goroutine (option connImpl) H)) :=
  match st with
  | FailsWith e s' =>
      Returns ((errAcceptFailed e, (started ++ map (spawned cx h) conns)%list), s')
  | Stalls => Blocks
  | Crashes s' => Panics s'
  end.

(** The client's [Close] returns in every state. *)
Definition closeReturns {St} (c : tunnel_client.Tunnel St) : Prop :=
  forall s, exists r s', tunnel_client.Close c s = Returns (r, s').

(** A goroutine as [Serve t ctx h] starts them: a non-nil connection
    around a non-nil proxy connection whose stream it carries, the
    handler [h], and a context derived from [ctx] that is done exactly
    when [ctx] is. *)
Definition servedBy {H} (ctx : context.Context) (h : H)
    (g : http.goroutine (option connImpl) H) : Prop :=
  (exists c a pc,
      http.rwc g = Some c
      /\ connImpl.ProxyConn c = ref a pc
      /\ Conn c = tunnel_client.Conn pc)
  /\ http.handler g = h
  /\ http.connCtx g = context.WithValue ctx http.ServerContextKey
  /\ context.Err (http.connCtx g) = context.Err ctx.

(** More test doubles: a client that always has a connection to hand
    out, and one that returns neither a connection nor an error. *)
Definition endlessAccept : Go fake.state (pointer tunnel_client.ProxyConn * option error) :=
  fun s => Returns ((fake.conn1, None), s).

Definition carelessAccept : Go fake.state (pointer tunnel_client.ProxyConn * option error) :=
  fun s => Returns ((nil_ptr, None), s).

Definition endless := fake.client endlessAccept fake.okClose.
Definition careless := fake.client carelessAccept fake.okClose.

(** * Accept *)

Lemma Accept_error {St} (t : tunnelImpl St) s p e s' :
  tunnel_client.Accept (Tunnel t) s = Returns ((p, Some e), s') ->
  tunnelImpl.Accept t s = Returns ((None, Some (errAcceptFailed e)), s').
Proof.
  intros Hc. unfold tunnelImpl.Accept, go_bind. rewrite Hc. reflexivity.
Qed.

Lemma Accept_conn {St} (t : tunnelImpl St) s a pc s' :
  tunnel_client.Accept (Tunnel t) s = Returns ((ref a pc, None), s') ->
  tunnelImpl.Accept t s = Returns ((wrapped (ref a pc), None), s').
Proof.
  intros Hc. unfold tunnelImpl.Accept, go_bind. rewrite Hc. reflexivity.
Qed.

(** What the client did, read off a call of [Accept] that returned. *)
Lemma Accept_inv {St} (t : tunnelImpl St) s c err s' :
  tunnelImpl.Accept t s = Returns ((c, err), s') ->
  (exists p e, tunnel_client.Accept (Tunnel t) s = Returns ((p, Some e), s')
               /\ c = None /\ err = Some (errAcceptFailed e))
  \/ (exists a pc, tunnel_client.Accept (Tunnel t) s = Returns ((ref a pc, None), s')
                   /\ c = wrapped (ref a pc) /\ err = None).
Proof.
  unfold tunnelImpl.Accept, go_bind.
  destruct (tunnel_client.Accept (Tunnel t) s) as [[[p oe] s1]| |] eqn:Hc;
    try discriminate.
  cbn. destruct oe as [e|].
  - intros [= <- <- <-]. left. eauto.
  - destruct p as [|a pc]; [discriminate|].
    intros [= <- <- <-]. right. eauto.
Qed.

(** C1: whenever the tunnel client's Accept returns an error e, the
    adapter's Accept returns a nil connection and an error of the
    AcceptFailed kind whose cause is exactly e. *)
Theorem Accept_failure_is_AcceptFailed {St} (t : tunnelImpl St) s p e s' :
  tunnel_client.Accept (Tunnel t) s = Returns ((p, Some e), s') ->
  exists err,
    tunnelImpl.Accept t s = Returns ((None, Some err), s')
    /\ isAcceptFailed err = true
    /\ Unwrap err = Some e.
Proof.
  intros Hc. exists (errAcceptFailed e).
  split; [by apply Accept_error with p | by split].
Qed.

Lemma Accept_failure_is_AcceptFailed_witness :
  tunnel_client.Accept (Tunnel (fake.tunnel fake.strict)) (fake.with_closed fake.open1 true)
    = Returns ((nil_ptr, Some fake.sentinel), fake.with_closed fake.open1 true)
  /\ exists err,
       tunnelImpl.Accept (fake.tunnel fake.strict) (fake.with_closed fake.open1 true)
         = Returns ((None, Some err), fake.with_closed fake.open1 true)
       /\ isAcceptFailed err = true
       /\ Unwrap err = Some fake.sentinel.
Proof.
  split; [reflexivity|].
  apply (Accept_failure_is_AcceptFailed (fake.tunnel fake.strict)
           (fake.with_closed fake.open1 true) nil_ptr fake.sentinel).
  reflexivity.
Defined.

(** C10: a connection returned by Accept wraps the very proxy connection
    the client produced: its stream is that proxy connection's stream,
    its ProxyConn() is that proxy connection; and the connection is
    non-nil exactly when the error is nil. *)
Theorem Accept_passes_proxy_through {St} (t : tunnelImpl St) s c err s' :
  tunnelImpl.Accept t s = Returns ((c, err), s') ->
  (c <> None <-> err = None)
  /\ forall conn, c = Some conn ->
       exists a pc,
         tunnel_client.Accept (Tunnel t) s = Returns ((ref a pc, None), s')
         /\ Conn conn = tunnel_client.Conn pc
         /\ connImpl.ProxyConn conn = ref a pc.
Proof.
  intros Ha. apply Accept_inv in Ha as [(p & e & Hc & -> & ->)|(a & pc & Hc & -> & ->)].
  - split; [split; [congruence|discriminate]|discriminate].
  - split; [split; [done|discriminate]|].
    intros conn [= <-]. exists a, pc. done.
Qed.

Lemma Accept_passes_proxy_through_witness :
  tunnelImpl.Accept (fake.tunnel fake.strict) fake.open1
    = Returns ((wrapped fake.conn1, None), fake.with_pending fake.open1 [])
  /\ (wrapped fake.conn1 <> None <-> @None error = None)
  /\ forall conn, wrapped fake.conn1 = Some conn ->
       exists a pc,
         tunnel_client.Accept (Tunnel (fake.tunnel fake.strict)) fake.open1
           = Returns ((ref a pc, None), fake.with_pending fake.open1 [])
         /\ Conn conn = tunnel_client.Conn pc
         /\ connImpl.ProxyConn conn = ref a pc.
Proof.
  split; [reflexivity|].
  apply (Accept_passes_proxy_through (fake.tunnel fake.strict) fake.open1).
  reflexivity.
Defined.

(** * Close *)

(** C2: Close() gives, in every state of the client, the result of
    CloseWithContext on a context bounded to five seconds. *)
Theorem Close_is_CloseWithContext_5s {St} (t : tunnelImpl St) st s :
  tunnelImpl.Close t s = tunnelImpl.CloseWithContext t (fiveSeconds st) s.
Proof. reflexivity. Qed.

(** C4: the context handed to CloseWithContext has no influence: any two
    contexts give the same result, which is the result of the client's
    Close. *)
Theorem CloseWithContext_ignores_context {St} (t : tunnelImpl St) ctx1 ctx2 s :
  tunnelImpl.CloseWithContext t ctx1 s = tunnelImpl.CloseWithContext t ctx2 s
  /\ tunnelImpl.CloseWithContext t ctx1 s = tunnel_client.Close (Tunnel t) s.
Proof. split; reflexivity. Qed.

(** C3, as the code has it: on a context that is already done,
    CloseWithContext does what the client's Close does and nothing else.
    It blocks while that call blocks, and what it returns is that call's
    result, unchanged. *)
Theorem CloseWithContext_done_context {St} (t : tunnelImpl St) ctx s :
  context.Err ctx <> None ->
  (tunnel_client.Close (Tunnel t) s = Blocks ->
     tunnelImpl.CloseWithContext t ctx s = Blocks)
  /\ (forall r s',
        tunnelImpl.CloseWithContext t ctx s = Returns (r, s') <->
        tunnel_client.Close (Tunnel t) s = Returns (r, s')).
Proof. intros _. split; [intros H; exact H|intros r s'; reflexivity]. Qed.

Lemma CloseWithContext_done_context_witness :
  context.Err (fiveSeconds context.DeadlinePassed) <> None
  /\ (tunnel_client.Close (Tunnel (fake.tunnel fake.failing)) fake.open1 = Blocks ->
        tunnelImpl.CloseWithContext (fake.tunnel fake.failing)
          (fiveSeconds context.DeadlinePassed) fake.open1 = Blocks)
  /\ (forall r s',
        tunnelImpl.CloseWithContext (fake.tunnel fake.failing)
          (fiveSeconds context.DeadlinePassed) fake.open1 = Returns (r, s') <->
        tunnel_client.Close (Tunnel (fake.tunnel fake.failing)) fake.open1
          = Returns (r, s')).
Proof.
  split; [discriminate|].
  apply (CloseWithContext_done_context (fake.tunnel fake.failing)
           (fiveSeconds context.DeadlinePassed) fake.open1).
  discriminate.
Defined.

(** C3, as claimed, fails: with a cancelled context and a client whose
    close never returns, CloseWithContext never returns, so it surfaces
    no error at all, cancellation or other. *)
Lemma CloseWithContext_outlives_cancellation :
  context.Err (fiveSeconds context.CancelCalled) = Some Canceled
  /\ tunnelImpl.CloseWithContext (fake.tunnel fake.stuck)
       (fiveSeconds context.CancelCalled) fake.open1 = Blocks
  /\ ~ exists e s',
        tunnelImpl.CloseWithContext (fake.tunnel fake.stuck)
          (fiveSeconds context.CancelCalled) fake.open1 = Returns (Some e, s')
        /\ context.isContextError e = true.
Proof.
  split; [reflexivity|]. split; [reflexivity|].
  intros (e & s' & Hret & _). discriminate Hret.
Qed.

(** * Descriptive accessors and views *)

(** C5: AsHTTP returns the receiver itself.  Whatever the store of
    adapter objects holds, every method gives through the view what it
    gives through the tunnel, Session included, and an object written
    at the tunnel's address is the one the view reads. *)
Theorem AsHTTP_is_the_same_tunnel {St} (h : tunnelImpl.store St) (t : tunnelImpl.ptr) :
  tunnelImpl.AsHTTP t = t
  /\ tunnelImpl.via tunnelImpl.Session h (tunnelImpl.AsHTTP t)
     = tunnelImpl.via tunnelImpl.Session h t
  /\ (forall A (m : tunnelImpl St -> A),
        tunnelImpl.via m h (tunnelImpl.AsHTTP t) = tunnelImpl.via m h t)
  /\ (forall A (m : tunnelImpl St -> A) obj,
        tunnelImpl.via m (store_set h t obj) (tunnelImpl.AsHTTP t) = m obj).
Proof.
  repeat split.
  intros A m obj. unfold tunnelImpl.via, tunnelImpl.AsHTTP, store_set.
  by rewrite decide_True.
Qed.

(** C6, as the code has it: Metadata, Proto, URL and Labels return the
    field the client's bind configuration holds when they are called;
    ID and ForwardsTo return what the client's ID() and ForwardsTo()
    report when they are called.  Nothing is kept in the adapter: after
    any change [mutate] of the client's state the same holds of the
    changed state. *)
Theorem accessors_read_at_call_time {St} (t : tunnelImpl St) (mutate : St -> St) s :
  readsClientAt t s /\ readsClientAt t (mutate s).
Proof. split; repeat split. Qed.

(** With the test double: a bind configuration put in place between two
    calls is the one the second call reads. *)
Lemma rebind_is_seen c s cfg :
  tunnel_client.RemoteBindConfig c = fake.bind ->
  tunnelImpl.URL (fake.tunnel c) (fake.with_bind s cfg) = tunnel_client.URL cfg
  /\ tunnelImpl.Proto (fake.tunnel c) (fake.with_bind s cfg)
     = tunnel_client.ConfigProto cfg
  /\ tunnelImpl.Metadata (fake.tunnel c) (fake.with_bind s cfg)
     = tunnel_client.Metadata cfg
  /\ tunnelImpl.Labels (fake.tunnel c) (fake.with_bind s cfg)
     = tunnel_client.Labels cfg.
Proof.
  intros Hc. unfold tunnelImpl.URL, tunnelImpl.Proto, tunnelImpl.Metadata,
    tunnelImpl.Labels. cbn [Tunnel fake.tunnel]. rewrite Hc. by cbn.
Qed.

(** C6, as claimed, fails for ID and ForwardsTo: two states of a client
    with the same bind configuration give different identifiers and
    forwarding targets. *)
Lemma ID_ForwardsTo_not_from_bind_config :
  tunnel_client.RemoteBindConfig (Tunnel (fake.tunnel fake.strict)) fake.open1
    = tunnel_client.RemoteBindConfig (Tunnel (fake.tunnel fake.strict)) fake.open2
  /\ tunnelImpl.ID (fake.tunnel fake.strict) fake.open1
     <> tunnelImpl.ID (fake.tunnel fake.strict) fake.open2
  /\ tunnelImpl.ForwardsTo (fake.tunnel fake.strict) fake.open1
     <> tunnelImpl.ForwardsTo (fake.tunnel fake.strict) fake.open2.
Proof. repeat split; discriminate. Qed.



(** * Accept after Close *)

(** A call of the adapter that returns is a call of the client that
    returns, between the same states. *)
Lemma step_clientStep {St} (t : tunnelImpl St) s s' :
  step t s s' -> clientStep (Tunnel t) s s'.
Proof.
  intros [s0 [c err] s1 Ha|s0 r s1 Hc|ctx s0 r s1 Hc].
  - apply Accept_inv in Ha as [(p & e & Hc & _)|(a & pc & Hc & _)];
      eapply clientStep_Accept; exact Hc.
  - eapply clientStep_Close; exact Hc.
  - eapply clientStep_Close; exact Hc.
Qed.

Lemma steps_clientSteps {St} (t : tunnelImpl St) s s' :
  rtc (step t) s s' -> rtc (clientStep (Tunnel t)) s s'.
Proof.
  induction 1 as [|s0 s1 s2 Hstep _ IH]; [constructor|].
  eapply rtc_l; [apply step_clientStep; exact Hstep|exact IH].
Qed.

(** The strict double stays closed. *)
Lemma strict_stays_closed s s' :
  rtc (clientStep fake.strict) s s' ->
  fake.closed s = true -> fake.closed s' = true.
Proof.
  induction 1 as [|s0 s1 s2 Hstep _ IH]; [done|].
  intros Hcl. apply IH. clear IH.
  destruct Hstep as [s0 r s1 Ha|s0 r s1 Hc].
  - cbn in Ha. unfold fake.strictAccept in Ha. rewrite Hcl in Ha.
    by injection Ha as _ <-.
  - cbn in Hc. unfold fake.okClose in Hc. by injection Hc as _ <-.
Qed.

Lemma strict_refusesAfterClose : refusesAfterClose fake.strict.
Proof.
  intros s s' Hc s'' Hrun.
  assert (fake.closed s'' = true) as Hcl.
  { apply (strict_stays_closed s' s'' Hrun).
    cbn in Hc. unfold fake.okClose in Hc. by injection Hc as <-. }
  exists nil_ptr, fake.sentinel, s''.
  cbn. unfold fake.strictAccept. by rewrite Hcl.
Qed.

(** C8, as the code has it: over a client that fails every Accept made
    after a successful Close of its own, once Close or CloseWithContext
    has returned nil, every later Accept of the adapter returns a nil
    connection and an AcceptFailed error. *)
Theorem Accept_refused_after_Close {St} (t : tunnelImpl St) s s' s'' :
  refusesAfterClose (Tunnel t) ->
  (tunnelImpl.Close t s = Returns (None, s')
   \/ exists ctx, tunnelImpl.CloseWithContext t ctx s = Returns (None, s')) ->
  rtc (step t) s' s'' ->
  exists e s3,
    tunnelImpl.Accept t s'' = Returns ((None, Some (errAcceptFailed e)), s3).
Proof.
  intros Href Hclose Hrun.
  assert (tunnel_client.Close (Tunnel t) s = Returns (None, s')) as Hc.
  { destruct Hclose as [Hc|[ctx Hc]]; exact Hc. }
  destruct (Href s s' Hc s'' (steps_clientSteps t s' s'' Hrun))
    as (p & e & s3 & Ha).
  exists e, s3. by apply Accept_error with p.
Qed.

Lemma Accept_refused_after_Close_witness :
  refusesAfterClose (Tunnel (fake.tunnel fake.strict))
  /\ tunnelImpl.Close (fake.tunnel fake.strict) fake.open1
     = Returns (None, fake.with_closed fake.open1 true)
  /\ rtc (step (fake.tunnel fake.strict))
       (fake.with_closed fake.open1 true) (fake.with_closed fake.open1 true)
  /\ exists e s3,
       tunnelImpl.Accept (fake.tunnel fake.strict) (fake.with_closed fake.open1 true)
       = Returns ((None, Some (errAcceptFailed e)), s3).
Proof.
  assert (rtc (step (fake.tunnel fake.strict))
            (fake.with_closed fake.open1 true) (fake.with_closed fake.open1 true))
    as Hrun.
  { apply rtc_once.
    apply (step_Accept (fake.tunnel fake.strict) (fake.with_closed fake.open1 true)
             (None, Some (errAcceptFailed fake.sentinel))).
    reflexivity. }
  split; [exact strict_refusesAfterClose|].
  split; [reflexivity|].
  split; [exact Hrun|].
  apply (Accept_refused_after_Close (fake.tunnel fake.strict) fake.open1
           (fake.with_closed fake.open1 true) (fake.with_closed fake.open1 true)).
  - exact strict_refusesAfterClose.
  - left. reflexivity.
  - exact Hrun.
Defined.

(** C8, as claimed, fails: the draining double closes successfully and
    then hands the adapter the connection it had queued. *)
Lemma Accept_after_Close_hands_out_connection :
  tunnelImpl.Close (fake.tunnel fake.draining) fake.open1
    = Returns (None, fake.with_closed fake.open1 true)
  /\ tunnelImpl.Accept (fake.tunnel fake.draining) (fake.with_closed fake.open1 true)
     = Returns ((wrapped fake.conn1, None),
                fake.with_pending (fake.with_closed fake.open1 true) [])
  /\ wrapped fake.conn1 <> None.
Proof. repeat split. discriminate. Qed.

(** * Serve *)





(** Why the second premise is there: were the adapter's error a
    temporary [net.Error], the loop would call [Accept] again, and over
    a client that keeps reporting its close it would go on for ever:
    no amount of fuel sees [Serve] return. *)
Lemma Serve_retries_temporary {H} (ctx : context.Context) (h : H) fuel :
  tunnelImpl.Serve (fun _ => true) fuel (fake.tunnel fake.draining) ctx h
    (fake.with_pending fake.closing1 []) = None.
Proof.
  unfold tunnelImpl.Serve, http.Serve.
  generalize (@nil (http.goroutine (option connImpl) H)) as started.
  induction fuel as [|fuel IH]; intros started; [reflexivity|].
  cbn. cbn in IH. by rewrite IH.
Qed.

(** * Further properties of Accept *)

(** X1: Accept panics exactly when the client's Accept panics or returns
    a nil proxy connection together with a nil error (the selection
    [conn.Conn] then follows a nil pointer); the panic leaves the state
    the client's call left. *)
Theorem Accept_panics_iff {St} (t : tunnelImpl St) s s' :
  tunnelImpl.Accept t s = Panics s' <->
  tunnel_client.Accept (Tunnel t) s = Panics s'
  \/ tunnel_client.Accept (Tunnel t) s = Returns ((nil_ptr, None), s').
Proof.
  unfold tunnelImpl.Accept, go_bind.
  destruct (tunnel_client.Accept (Tunnel t) s) as [[[p oe] s1]|s1|] eqn:Hc.
  - cbn. destruct oe as [e|]; [|destruct p as [|a pc]].
    + split; [discriminate|]. intros [Hp|Hn]; discriminate.
    + unfold go_panic. split.
      * intros [= <-]. by right.
      * intros [Hp|Hn]; [discriminate|]. by injection Hn as <-.
    + split; [discriminate|]. intros [Hp|Hn]; discriminate.
  - split.
    + intros [= <-]. by left.
    + intros [Hp|Hn]; [by injection Hp as <-|discriminate].
  - split; [discriminate|]. intros [Hp|Hn]; discriminate.
Qed.

(** X2: Accept blocks exactly when the client's Accept blocks: the
    adapter waits for nothing of its own. *)
Theorem Accept_blocks_iff {St} (t : tunnelImpl St) s :
  tunnelImpl.Accept t s = Blocks <-> tunnel_client.Accept (Tunnel t) s = Blocks.
Proof.
  unfold tunnelImpl.Accept, go_bind.
  destruct (tunnel_client.Accept (Tunnel t) s) as [[[p oe] s1]| |] eqn:Hc.
  - cbn. destruct oe as [e|]; [|destruct p as [|a pc]];
      split; discriminate.
  - split; discriminate.
  - split; reflexivity.
Qed.

(** * The accept loop, run by run *)

Lemma loopOutcome_snoc {St H} cx (h : H) started p conns (st : stop St) :
  loopOutcome cx h (started ++ [spawned cx h p])%list conns st
  = loopOutcome cx h started (p :: conns) st.
Proof. destruct st; cbn; [by rewrite <- app_assoc|done|done]. Qed.

(** A run of the client decides what the loop over the adapter gives,
    whatever has been started before and whatever fuel is left over. *)
Lemma acceptLoop_of_run {St H} (tmp : error -> bool) (t : tunnelImpl St)
    (srv : http.Server St (option connImpl) H) cx s n conns st :
  acceptRun tmp (Tunnel t) s n conns st ->
  forall fuel started,
    n <= fuel ->
    http.acceptLoop (net.Temporary tmp) fuel srv (tunnelImpl.asListener t)
      cx started s
    = Some (loopOutcome cx (http.Handler srv) started conns st).
Proof.
  induction 1 as [s p e s' Hc Htmp|s p e s' n conns st Hc Htmp _ IH
                 |s a pc s' n conns st Hc _ IH|s Hc|s s' Hc|s s' Hc];
    intros fuel started Hfuel;
    (destruct fuel as [|fuel]; [lia|]);
    cbn [http.acceptLoop tunnelImpl.asListener net.Accept].
  - rewrite (Accept_error t s p e s' Hc). cbn. rewrite Htmp.
    by rewrite app_nil_r.
  - rewrite (Accept_error t s p e s' Hc). cbn. rewrite Htmp.
    apply IH. lia.
  - rewrite (Accept_conn t s a pc s' Hc).
    rewrite IH by lia. f_equal. apply loopOutcome_snoc.
  - by rewrite (proj2 (Accept_blocks_iff t s) Hc).
  - by rewrite (proj2 (Accept_panics_iff t s s') (or_introl Hc)).
  - by rewrite (proj2 (Accept_panics_iff t s s') (or_intror Hc)).
Qed.

(** Conversely, whatever the loop gives comes from a run of the client
    of at most [fuel] calls. *)
Lemma run_of_acceptLoop {St H} (tmp : error -> bool) (t : tunnelImpl St)
    (srv : http.Server St (option connImpl) H) cx fuel :
  forall started s o,
    http.acceptLoop (net.Temporary tmp) fuel srv (tunnelImpl.asListener t)
      cx started s = Some o ->
    exists n conns st,
      n <= fuel
      /\ acceptRun tmp (Tunnel t) s n conns st
      /\ o = loopOutcome cx (http.Handler srv) started conns st.
Proof.
  induction fuel as [|fuel IH]; intros started s o; [discriminate|].
  cbn [http.acceptLoop tunnelImpl.asListener net.Accept].
  unfold tunnelImpl.Accept, go_bind.
  destruct (tunnel_client.Accept (Tunnel t) s) as [[[p oe] s']|s'|] eqn:Hc.
  - cbn. destruct oe as [e|]; [|destruct p as [|a pc]].
    + cbn. destruct (tmp e) eqn:Htmp.
      * intros Hloop. apply IH in Hloop as (n & conns & st & Hn & Hrun & ->).
        exists (S n), conns, st. split; [lia|]. split; [|done].
        by apply acceptRun_retry with p e s'.
      * intros [= <-]. exists 1, [], (FailsWith e s').
        split; [lia|]. split; [by apply acceptRun_fail with p|].
        cbn. by rewrite app_nil_r.
    + cbn. intros [= <-]. exists 1, [], (Crashes s').
      split; [lia|]. split; [by apply acceptRun_nil|done].
    + cbn. intros Hloop. apply IH in Hloop as (n & conns & st & Hn & Hrun & ->).
      exists (S n), (ref a pc :: conns), st. split; [lia|].
      split; [by apply acceptRun_conn with s'|].
      exact (loopOutcome_snoc cx (http.Handler srv) started (ref a pc) conns st).
  - intros [= <-]. exists 1, [], (Crashes s').
    split; [lia|]. split; [by apply acceptRun_panic|done].
  - intros [= <-]. exists 1, [], Stalls.
    split; [lia|]. split; [by apply acceptRun_block|done].
Qed.


(** The connections of a run are non-nil. *)
Lemma acceptRun_conns_ref {St} tmp (c : tunnel_client.Tunnel St) s n conns st :
  acceptRun tmp c s n conns st ->
  Forall (fun p => exists a pc, p = ref a pc) conns.
Proof. induction 1; eauto. Qed.

Lemma served_spawned {H} ctx (h : H) p :
  served ctx h p = spawned (context.WithValue ctx http.ServerContextKey) h p.
Proof. reflexivity. Qed.

(** * Further properties of Serve *)



(** X5: over a client whose Accept, after some connections, blocks (a
    tunnel that stays open with nothing to accept), Serve does not
    return: it is blocked in Accept. *)
Theorem Serve_blocks_in_Accept {St H} (tmp : error -> bool)
    (t : tunnelImpl St) (ctx : context.Context) (h : H) s n conns fuel :
  acceptRun tmp (Tunnel t) s n conns Stalls ->
  n <= fuel ->
  tunnelImpl.Serve tmp fuel t ctx h s = Some Blocks.
Proof.
  intros Hrun Hfuel. unfold tunnelImpl.Serve, http.Serve.
  by rewrite (acceptLoop_of_run tmp t _ _ s n conns _ Hrun fuel [] Hfuel).
Qed.

Lemma Serve_blocks_in_Accept_witness :
  tunnelImpl.Serve (fun _ => false) 2 (fake.tunnel fake.strict)
    context.Background "handler" fake.open1 = Some Blocks.
Proof.
  apply (Serve_blocks_in_Accept (fun _ => false) (fake.tunnel fake.strict)
           context.Background "handler" fake.open1 2 [fake.conn1] 2).
  - eapply acceptRun_conn; [reflexivity|]. apply acceptRun_block. reflexivity.
  - lia.
Defined.

(** X6: over a client whose Accept, after some connections, panics or
    returns neither a connection nor an error, Serve still makes its
    deferred close, in the state the panic left: it panics once that
    close has returned or panicked, and it blocks when that close never
    returns. *)
Theorem Serve_panics_with_Accept {St H} (tmp : error -> bool)
    (t : tunnelImpl St) (ctx : context.Context) (h : H) s n conns s1 fuel :
  acceptRun tmp (Tunnel t) s n conns (Crashes s1) ->
  n <= fuel ->
  tunnelImpl.Serve tmp fuel t ctx h s
  = Some (match tunnel_client.Close (Tunnel t) s1 with
          | Returns (_, s2) => Panics s2
          | Panics s2 => Panics s2
          | Blocks => Blocks
          end).
Proof.
  intros Hrun Hfuel. unfold tunnelImpl.Serve, http.Serve.
  rewrite (acceptLoop_of_run tmp t _ _ s n conns _ Hrun fuel [] Hfuel).
  cbn. unfold tunnelImpl.Close, tunnelImpl.CloseWithContext.
  by destruct (tunnel_client.Close (Tunnel t) s1) as [[r s2]|s2|].
Qed.

(** The careless client closes well: Serve panics, the tunnel closed.
    With a close that never returns, Serve blocks instead. *)
Lemma Serve_panics_with_Accept_witness :
  tunnelImpl.Serve (fun _ => false) 1 (fake.tunnel careless)
    context.Background "handler" fake.open1
  = Some (Panics (fake.with_closed fake.open1 true))
  /\ tunnelImpl.Serve (fun _ => false) 1
       (fake.tunnel (fake.client carelessAccept fake.stuckClose))
       context.Background "handler" fake.open1
     = Some Blocks.
Proof.
  split.
  - apply (Serve_panics_with_Accept (fun _ => false) (fake.tunnel careless)
             context.Background "handler" fake.open1 1 [] fake.open1 1).
    + apply acceptRun_nil. reflexivity.
    + lia.
  - apply (Serve_panics_with_Accept (fun _ => false)
             (fake.tunnel (fake.client carelessAccept fake.stuckClose))
             context.Background "handler" fake.open1 1 [] fake.open1 1).
    + apply acceptRun_nil. reflexivity.
    + lia.
Defined.

(** X7: when the accept loop has ended with an error but the client's
    Close, called on the way out, never returns, Serve never returns
    either: the error is not delivered. *)
Theorem Serve_blocks_in_Close {St H} (tmp : error -> bool)
    (t : tunnelImpl St) (ctx : context.Context) (h : H) s n conns e s1 fuel :
  acceptRun tmp (Tunnel t) s n conns (FailsWith e s1) ->
  tunnel_client.Close (Tunnel t) s1 = Blocks ->
  n <= fuel ->
  tunnelImpl.Serve tmp fuel t ctx h s = Some Blocks.
Proof.
  intros Hrun Hclose Hfuel. unfold tunnelImpl.Serve, http.Serve.
  rewrite (acceptLoop_of_run tmp t _ _ s n conns _ Hrun fuel [] Hfuel).
  cbn. unfold tunnelImpl.Close, tunnelImpl.CloseWithContext.
  by rewrite Hclose.
Qed.

Lemma Serve_blocks_in_Close_witness :
  tunnelImpl.Serve (fun _ => false) 1 (fake.tunnel fake.stuck)
    context.Background "handler" fake.closing1 = Some Blocks.
Proof.
  apply (Serve_blocks_in_Close (fun _ => false) (fake.tunnel fake.stuck)
           context.Background "handler" fake.closing1 1 [] fake.sentinel
           fake.closing1 1).
  - apply (acceptRun_fail _ _ _ nil_ptr); reflexivity.
  - reflexivity.
  - lia.
Defined.

(** While every Accept of the client gives a connection or a failure
    that is retried, the loop uses up any fuel. *)
Lemma acceptLoop_goes_on {St H} (tmp : error -> bool) (t : tunnelImpl St)
    (srv : http.Server St (option connImpl) H) cx (P : St -> Prop) :
  (forall s, P s ->
     exists r s', tunnel_client.Accept (Tunnel t) s = Returns (r, s')
                  /\ continues tmp r /\ P s') ->
  forall fuel started s,
    P s ->
    http.acceptLoop (net.Temporary tmp) fuel srv (tunnelImpl.asListener t)
      cx started s = None.
Proof.
  intros Hinv fuel. induction fuel as [|fuel IH]; intros started s Hs;
    [reflexivity|].
  destruct (Hinv s Hs) as ([p oe] & s' & Hc & Hcont & Hs').
  cbn [http.acceptLoop tunnelImpl.asListener net.Accept].
  destruct oe as [e|].
  - assert (tmp e = true) as Htmp by (by destruct p).
    rewrite (Accept_error t s p e s' Hc). cbn. rewrite Htmp. by apply IH.
  - destruct p as [|a pc]; [done|].
    rewrite (Accept_conn t s a pc s' Hc). by apply IH.
Qed.

(** X8: Serve returns only when Accept fails for good.  From a state in
    an invariant [P] under which every Accept of the client gives a
    non-nil connection or a failure that is retried, Serve is still
    running after any number of Accept calls. *)
Theorem Serve_runs_while_Accept_succeeds {St H} (tmp : error -> bool)
    (t : tunnelImpl St) (ctx : context.Context) (h : H) (P : St -> Prop) s fuel :
  (forall s, P s ->
     exists r s', tunnel_client.Accept (Tunnel t) s = Returns (r, s')
                  /\ continues tmp r /\ P s') ->
  P s ->
  tunnelImpl.Serve tmp fuel t ctx h s = None.
Proof.
  intros Hinv Hs. unfold tunnelImpl.Serve, http.Serve.
  by rewrite (acceptLoop_goes_on tmp t _ _ P Hinv fuel [] s Hs).
Qed.

Lemma Serve_runs_while_Accept_succeeds_witness :
  tunnelImpl.Serve (fun _ => false) 10 (fake.tunnel endless)
    context.Background "handler" fake.open1 = None.
Proof.
  apply (Serve_runs_while_Accept_succeeds (fun _ => false) (fake.tunnel endless)
           context.Background "handler" (fun _ => True) fake.open1 10).
  - intros s _. exists (fake.conn1, None), s. repeat split.
  - exact I.
Defined.

(** X9: every goroutine Serve has started when it returns carries a
    non-nil connection whose ProxyConn() is a non-nil proxy connection
    with the same stream, the handler given to Serve, and a context
    derived from the one given to Serve, done exactly when that one
    is. *)
Theorem Serve_goroutines_servedBy {St H} (tmp : error -> bool)
    (t : tunnelImpl St) (ctx : context.Context) (h : H) fuel s err gs s2 :
  tunnelImpl.Serve tmp fuel t ctx h s = Some (Returns ((err, gs), s2)) ->
  Forall (servedBy ctx h) gs.
Proof.
  unfold tunnelImpl.Serve, http.Serve.
  destruct (http.acceptLoop _ fuel _ _ _ [] s) as [o|] eqn:Hloop; [|discriminate].
  apply run_of_acceptLoop in Hloop as (n & conns & st & Hn & Hrun & ->).
  destruct st as [e s1| |s1]; cbn; [|discriminate|];
    (destruct (tunnelImpl.Close t s1) as [[r s2']|s2'|];
     [|discriminate|discriminate]); [|discriminate].
  intros [= <- <- <-].
  apply Forall_map.
  eapply Forall_impl; [exact (acceptRun_conns_ref tmp (Tunnel t) s n conns _ Hrun)|].
  intros p (a & pc & ->). split; [|done].
  exists {| Conn := tunnel_client.Conn pc; Proxy := ref a pc |}, a, pc. done.
Qed.

Lemma Serve_goroutines_servedBy_witness :
  Forall (servedBy context.Background "handler")
    [served context.Background "handler" fake.conn1].
Proof.
  apply (Serve_goroutines_servedBy (fun _ => false) (fake.tunnel fake.draining)
           context.Background "handler" 2 fake.closing1
           (errAcceptFailed fake.sentinel)
           [served context.Background "handler" fake.conn1]
           (fake.with_pending fake.closing1 [])).
  reflexivity.
Defined.

(** X10: Close, then Serve.  Over a client that fails every Accept after
    a successful Close and whose Close always returns, and with adapter
    errors that are not temporary, a Serve started after Close has
    returned nil starts no goroutine and returns an AcceptFailed error
    after a single Accept. *)
Theorem Serve_after_Close_starts_nothing {St H} (tmp : error -> bool)
    (t : tunnelImpl St) (ctx : context.Context) (h : H) s s1 fuel :
  refusesAfterClose (Tunnel t) ->
  closeReturns (Tunnel t) ->
  (forall e, tmp e = false) ->
  tunnelImpl.Close t s = Returns (None, s1) ->
  exists e s2,
    tunnelImpl.Serve tmp (S fuel) t ctx h s1
    = Some (Returns ((errAcceptFailed e, []), s2)).
Proof.
  intros Href Hcr Htmp Hclose.
  destruct (Href s s1 Hclose s1 (rtc_refl _ _)) as (p & e & s3 & Ha).
  destruct (Hcr s3) as (r & s2 & Hc).
  exists e, s2. unfold tunnelImpl.Serve, http.Serve.
  rewrite (acceptLoop_of_run tmp t _ _ s1 1 [] (FailsWith e s3)
             (acceptRun_fail tmp (Tunnel t) s1 p e s3 Ha (Htmp e)) (S fuel) []);
    [|lia].
  cbn. unfold tunnelImpl.Close, tunnelImpl.CloseWithContext.
  by rewrite Hc.
Qed.

Lemma Serve_after_Close_starts_nothing_witness :
  tunnelImpl.Close (fake.tunnel fake.strict) fake.open1
    = Returns (None, fake.closing1)
  /\ exists e s2,
       tunnelImpl.Serve (fun _ => false) 1 (fake.tunnel fake.strict)
         context.Background "handler" fake.closing1
       = Some (Returns ((errAcceptFailed e, []), s2)).
Proof.
  split; [reflexivity|].
  apply (Serve_after_Close_starts_nothing (fun _ => false)
           (fake.tunnel fake.strict) context.Background "handler"
           fake.open1 fake.closing1 0).
  - exact strict_refusesAfterClose.
  - intros s. exists None, (fake.with_closed s true). reflexivity.
  - reflexivity.
  - reflexivity.
Defined.
